(** * waftools/defines.py: the [--build-debug] option and its [BUILD_DEBUG] define

    The tool has two entry points, called by the host build framework:
    [options], which registers the command-line switch, and [configure],
    which reads the parsed value of the switch and, when it is set, appends
    the symbol [BUILD_DEBUG] to the [DEFINES] list of the build environment.

    Both functions act on a context object owned by the host.  The context
    is modelled as an explicit state ([Waf.Context]) threaded through a small
    state-and-exception monad ([Waf.M]); the two source functions are
    written in that monad, statement for statement. *)

From Stdlib Require Import Ascii.
From stdpp Require Import base strings list option gmap fin_maps.

Module Waf.

(** ** Python values stored in the option table *)

Inductive PyVal : Type :=
| PyNone
| PyBool (b : bool)
| PyStr (s : string).

#[global] Instance PyVal_eq_dec : EqDecision PyVal.
Proof. solve_decision. Defined.

(** Truth value of an object in an [if] statement. *)
Definition truthy (v : PyVal) : bool :=
  match v with
  | PyNone => false
  | PyBool b => b
  | PyStr s => negb (bool_decide (s = EmptyString))
  end.

(** ** Exceptions and results *)

Inductive PyError : Type :=
| AttributeError (attr : string)
| OptionError (flag : string).

Inductive Result (A : Type) : Type :=
| Ok (a : A)
| Raise (e : PyError).
Arguments Ok {A} a.
Arguments Raise {A} e.

(** ** Option definitions *)

Inductive Action : Type :=
| store
| store_true.

Record OptionDef : Type := mkOptionDef {
  opt_action : Action;
  opt_default : PyVal;
  opt_help : string;
  opt_dest : string
}.

(** ** The context object

    [ctx_parser] is the set of recognised options, keyed by flag name;
    [ctx_options] is [ctx.options], the table of parsed option values,
    keyed by attribute name; [ctx_env] is [ctx.env], the build
    environment, a table of named lists of strings.  Each field of the
    environment holds its own list: the table maps names to list values,
    not to list objects that two names could share. *)

Record Context : Type := mkContext {
  ctx_parser : gmap string OptionDef;
  ctx_options : gmap string PyVal;
  ctx_env : gmap string (list string)
}.

Definition set_parser (p : gmap string OptionDef) (ctx : Context) : Context :=
  {| ctx_parser := p; ctx_options := ctx_options ctx; ctx_env := ctx_env ctx |}.

Definition set_options (o : gmap string PyVal) (ctx : Context) : Context :=
  {| ctx_parser := ctx_parser ctx; ctx_options := o; ctx_env := ctx_env ctx |}.

Definition set_env (e : gmap string (list string)) (ctx : Context) : Context :=
  {| ctx_parser := ctx_parser ctx; ctx_options := ctx_options ctx; ctx_env := e |}.

(** ** The monad of host calls: state passing with exceptions *)

Definition M (A : Type) : Type := Context → Result (A * Context).

#[global] Instance M_ret : MRet M := λ A a ctx, Ok (a, ctx).

#[global] Instance M_bind : MBind M := λ A B f m ctx,
  match m ctx with
  | Ok (a, ctx') => f a ctx'
  | Raise e => Raise e
  end.

(** ** Host primitives *)

(** Reading a list-valued field of the environment; a field that was never
    set reads as the empty list. *)
Definition env_get (env : gmap string (list string)) (var : string) : list string :=
  default [] (env !! var).

(** Modelled from the spec: the host's [ctx.env.append_value] is not part
    of this repository.  The environment's field is "an ordered collection
    of symbol strings"; the call appends the value after the entries the
    field already holds and leaves every other field alone. *)
Definition append_value (var val : string) : M unit := λ ctx,
  Ok (tt, set_env (<[var := env_get (ctx_env ctx) var ++ [val]]> (ctx_env ctx)) ctx).

(** Attribute read [ctx.options.<attr>]: raises [AttributeError] when the
    table of parsed values has no such attribute. *)
Definition get_option (attr : string) : M PyVal := λ ctx,
  match ctx_options ctx !! attr with
  | Some v => Ok (v, ctx)
  | None => Raise (AttributeError attr)
  end.

(** Modelled from the spec: the attribute under which the host stores the
    parsed value of a flag is not fixed by this repository.  The flag
    [--build-debug] is read back as [build_debug]: the leading dashes are
    dropped and the remaining dashes become underscores. *)
Fixpoint dashes_to_underscores (s : string) : string :=
  match s with
  | EmptyString => EmptyString
  | String c s' =>
      String (if bool_decide (c = "-"%char) then "_"%char else c)
             (dashes_to_underscores s')
  end.

Definition strip_leading_dashes (s : string) : string :=
  match s with
  | String "-" (String "-" s') => s'
  | _ => s
  end.

Definition dest_of_flag (flag : string) : string :=
  dashes_to_underscores (strip_leading_dashes flag).

(** Modelled from the spec: the host's [ctx.add_option] is not part of
    this repository.  It "adds one ... flag definition (name, help text,
    default value) to the context's recognized option set"; the identity
    of an option is its flag name. *)
Definition add_option (flag : string) (action : Action) (dflt : PyVal)
    (help : string) : M unit := λ ctx,
  Ok (tt, set_parser
            (<[flag := {| opt_action := action; opt_default := dflt;
                          opt_help := help; opt_dest := dest_of_flag flag |}]>
               (ctx_parser ctx))
            ctx).

(** ** Command-line parsing *)

(** The table of parsed values before any token is read: every registered
    option contributes its default under its attribute name. *)
Definition defaults (parser : gmap string OptionDef) : gmap string PyVal :=
  list_to_map ((λ kd, (opt_dest kd.2, opt_default kd.2)) <$> map_to_list parser).

(** Modelled from the spec: the host's command-line parser is not part of
    this repository.  A [store_true] option is "a named boolean switch ...
    no value argument (presence alone sets it true)"; a [store] option, the
    host's default action, takes the token after it as its value.  Tokens
    that name no registered option are handed back in order, as
    positional arguments. *)
Fixpoint parse_tokens (parser : gmap string OptionDef) (argv : list string)
    (vals : gmap string PyVal) : Result (gmap string PyVal * list string) :=
  match argv with
  | [] => Ok (vals, [])
  | tok :: rest =>
      match parser !! tok with
      | Some d =>
          match opt_action d with
          | store_true =>
              parse_tokens parser rest (<[opt_dest d := PyBool true]> vals)
          | store =>
              match rest with
              | v :: rest' =>
                  parse_tokens parser rest' (<[opt_dest d := PyStr v]> vals)
              | [] => Raise (OptionError tok)
              end
          end
      | None =>
          match parse_tokens parser rest vals with
          | Ok (vals', args) => Ok (vals', tok :: args)
          | Raise e => Raise e
          end
      end
  end.

(** Parsing the command line fills [ctx.options] and returns the
    positional arguments. *)
Definition parse_args (argv : list string) : M (list string) := λ ctx,
  match parse_tokens (ctx_parser ctx) argv (defaults (ctx_parser ctx)) with
  | Ok (vals, args) => Ok (args, set_options vals ctx)
  | Raise e => Raise e
  end.

End Waf.

Import Waf.

(** * The source: [waftools/defines.py] *)

(** [def options(ctx)] *)
Definition options : M unit :=
  add_option "--build-debug" store_true (PyBool false)
             "Mark a build to include debug code".

(** [def configure(ctx)] *)
Definition configure : M unit :=
  build_debug ← get_option "build_debug";
  if truthy build_debug
  then append_value "DEFINES" "BUILD_DEBUG"
  else mret tt.

(** The [DEFINES] list of a context's environment. *)
Definition defines (ctx : Context) : list string :=
  env_get (ctx_env ctx) "DEFINES".

(** A whole invocation of the host, as far as this tool is concerned: the
    options phase, the parsing of the command line, the configure phase. *)
Definition invoke (argv : list string) : M (list string) :=
  options;;
  args ← parse_args argv;
  configure;;
  mret args.

(** The context of a fresh invocation: no option registered yet. *)
Definition fresh (env : gmap string (list string)) : Context :=
  {| ctx_parser := ∅; ctx_options := ∅; ctx_env := env |}.

(** The context after a run of [configure] that appended the symbol. *)
Definition appended (ctx : Context) : Context :=
  set_env (<["DEFINES" := defines ctx ++ ["BUILD_DEBUG"]]> (ctx_env ctx)) ctx.

(** A context is well formed for [configure] when the host has parsed the
    command line against an option set that includes this tool's flag, so
    that [ctx.options] has the attribute [build_debug]. *)
Definition well_formed (ctx : Context) : Prop :=
  is_Some (ctx_options ctx !! "build_debug").

#[global] Instance well_formed_dec ctx : Decision (well_formed ctx).
Proof. unfold well_formed. apply _. Defined.

(** What a later step can observe of a call: the [DEFINES] list it left
    behind, or the exception it raised. *)
Definition outcome (r : Result (unit * Context)) : Result (list string) :=
  match r with
  | Ok (_, ctx') => Ok (defines ctx')
  | Raise e => Raise e
  end.

(** The definition that [options] registers. *)
Definition build_debug_option : OptionDef :=
  {| opt_action := store_true;
     opt_default := PyBool false;
     opt_help := "Mark a build to include debug code";
     opt_dest := "build_debug" |}.

(** No option other than [--build-debug] stores its value under the
    attribute [build_debug]. *)
Definition unshared (parser : gmap string OptionDef) : Prop :=
  map_Forall (λ flag d, flag ≠ "--build-debug" → opt_dest d ≠ "build_debug") parser.

#[global] Instance unshared_dec parser : Decision (unshared parser).
Proof. unfold unshared. apply _. Defined.

(** The context the host hands to [configure] after it parsed a command
    line against this tool's flag alone: [flag] is the parsed value. *)
Definition parsed (flag : bool) (env : gmap string (list string)) : Context :=
  {| ctx_parser := {["--build-debug" := build_debug_option]};
     ctx_options := {["build_debug" := PyBool flag]};
     ctx_env := env |}.

(** [n] calls of a host entry point in a row, each on the context the
    previous one left; the first exception ends the run. *)
Fixpoint repeat_call (m : M unit) (n : nat) : M unit :=
  match n with
  | O => mret tt
  | S n' => m;; repeat_call m n'
  end.

(** * Worked runs *)

Example configure_foo :
  configure (mkContext ∅ {["build_debug" := PyBool true]} {["DEFINES" := ["FOO"]]})
  = Ok (tt, mkContext ∅ {["build_debug" := PyBool true]}
                      {["DEFINES" := ["FOO"; "BUILD_DEBUG"]]}).
Proof. vm_compute. reflexivity. Qed.

Example invoke_flag :
  invoke ["configure"; "--build-debug"; "build"] (fresh {["DEFINES" := ["FOO"]]})
  = Ok (["configure"; "build"],
        mkContext {["--build-debug" :=
                     mkOptionDef store_true (PyBool false)
                       "Mark a build to include debug code" "build_debug"]}
                  {["build_debug" := PyBool true]}
                  {["DEFINES" := ["FOO"; "BUILD_DEBUG"]]}).
Proof. vm_compute. reflexivity. Qed.

Example invoke_no_flag :
  invoke ["configure"; "build"] (fresh ∅)
  = Ok (["configure"; "build"],
        mkContext {["--build-debug" :=
                     mkOptionDef store_true (PyBool false)
                       "Mark a build to include debug code" "build_debug"]}
                  {["build_debug" := PyBool false]}
                  ∅).
Proof. vm_compute. reflexivity. Qed.

(** * How [configure] runs *)

Section Configure.

Implicit Types (ctx : Context) (v : PyVal).

(** The symbol and the field it goes to. *)
Lemma defines_append_value ctx ctx' val :
  append_value "DEFINES" val ctx = Ok (tt, ctx') →
  defines ctx' = defines ctx ++ [val].
Proof.
  unfold append_value. intros [= <-].
  unfold defines, env_get at 1. simpl. by rewrite lookup_insert_eq.
Qed.

(** [configure] unfolded at a context whose option table has the flag. *)
Lemma configure_unfold ctx v :
  ctx_options ctx !! "build_debug" = Some v →
  configure ctx = if truthy v then Ok (tt, appended ctx) else Ok (tt, ctx).
Proof.
  intros Hv. unfold configure, mbind, M_bind, get_option. rewrite Hv.
  by destruct (truthy v).
Qed.

(** Without the attribute, the read raises and nothing else happens. *)
Lemma configure_raises ctx :
  ctx_options ctx !! "build_debug" = None →
  configure ctx = Raise (AttributeError "build_debug").
Proof.
  intros Hv. unfold configure, mbind, M_bind, get_option. by rewrite Hv.
Qed.

Lemma configure_true ctx v :
  ctx_options ctx !! "build_debug" = Some v → truthy v = true →
  configure ctx = Ok (tt, appended ctx).
Proof. intros Hv Ht. by rewrite (configure_unfold _ _ Hv), Ht. Qed.

Lemma configure_false ctx v :
  ctx_options ctx !! "build_debug" = Some v → truthy v = false →
  configure ctx = Ok (tt, ctx).
Proof. intros Hv Ht. by rewrite (configure_unfold _ _ Hv), Ht. Qed.

Lemma defines_appended ctx :
  defines (appended ctx) = defines ctx ++ ["BUILD_DEBUG"].
Proof. unfold appended, defines, env_get at 1. simpl. by rewrite lookup_insert_eq. Qed.

End Configure.

(** * How [options] runs, and what the parser makes of the flag *)

Section Options.

Implicit Types (ctx : Context) (parser : gmap string OptionDef).
Implicit Types (vals : gmap string PyVal) (argv args : list string).

Lemma dest_of_build_debug : dest_of_flag "--build-debug" = "build_debug".
Proof. reflexivity. Qed.

Lemma options_unfold ctx :
  options ctx =
    Ok (tt, set_parser (<["--build-debug" := build_debug_option]> (ctx_parser ctx)) ctx).
Proof. reflexivity. Qed.

(** Induction on a token list for a parser that reads one or two tokens at
    a time. *)
Lemma tokens_ind (P : list string → Prop) :
  P [] →
  (∀ tok rest, P rest → (∀ v rest', rest = v :: rest' → P rest') → P (tok :: rest)) →
  ∀ argv, P argv.
Proof.
  intros Hnil Hcons argv.
  cut (P argv ∧ (∀ v rest', argv = v :: rest' → P rest')); [by intros [? _]|].
  induction argv as [|tok rest [IH1 IH2]].
  - split; [done|]. intros v rest' [=].
  - split; [by apply Hcons|]. by intros v rest' [= _ <-].
Qed.

(** Every registered option has its attribute in the table of defaults. *)
Lemma defaults_is_Some parser flag d :
  parser !! flag = Some d → is_Some (defaults parser !! opt_dest d).
Proof.
  intros Hd. unfold defaults.
  destruct (list_to_map _ !! opt_dest d) as [v|] eqn:E; [by eexists|].
  apply not_elem_of_list_to_map_2 in E. exfalso. apply E.
  rewrite <-list_fmap_compose.
  apply (list_elem_of_fmap_2' _ _ (flag, d)); [|done].
  by apply elem_of_map_to_list.
Qed.

(** The default of an attribute comes from an option that stores there. *)
Lemma defaults_Some parser attr v :
  defaults parser !! attr = Some v →
  ∃ flag d, parser !! flag = Some d ∧ opt_dest d = attr ∧ opt_default d = v.
Proof.
  unfold defaults. intros H%elem_of_list_to_map_2.
  apply list_elem_of_fmap in H as ([flag d] & [= -> ->] & Hin).
  exists flag, d. by apply elem_of_map_to_list in Hin.
Qed.

(** Parsing never removes an attribute from the table. *)
Lemma parse_tokens_keeps parser attr argv :
  ∀ vals vals' args,
    parse_tokens parser argv vals = Ok (vals', args) →
    is_Some (vals !! attr) → is_Some (vals' !! attr).
Proof.
  induction argv as [|tok rest IH1 IH2] using tokens_ind;
    intros vals vals' args; simpl.
  - by intros [= <- _].
  - destruct (parser !! tok) as [d|].
    + destruct (opt_action d).
      * destruct rest as [|w rest']; [done|].
        intros Hp Hs. eapply (IH2 w rest' eq_refl); [exact Hp|].
        rewrite lookup_insert. case_decide; [by eexists|done].
      * intros Hp Hs. eapply IH1; [exact Hp|].
        rewrite lookup_insert. case_decide; [by eexists|done].
    + destruct (parse_tokens parser rest vals) as [[vals1 args1]|] eqn:Hp; [|done].
      intros [= <- _]. by eapply IH1.
Qed.

(** A command line without the flag leaves [build_debug] as it was. *)
Lemma parse_tokens_absent parser argv :
  unshared parser →
  "--build-debug" ∉ argv →
  ∀ vals vals' args,
    parse_tokens parser argv vals = Ok (vals', args) →
    vals' !! "build_debug" = vals !! "build_debug".
Proof.
  intros Hun. induction argv as [|tok rest IH1 IH2] using tokens_ind;
    intros Hnotin vals vals' args; simpl.
  - by intros [= <- _].
  - apply not_elem_of_cons in Hnotin as [Htok Hrest].
    destruct (parser !! tok) as [d|] eqn:Hd.
    + assert (opt_dest d ≠ "build_debug") as Hdest by (eapply Hun; eauto).
      destruct (opt_action d).
      * destruct rest as [|w rest']; [done|].
        apply not_elem_of_cons in Hrest as [_ Hrest'].
        intros Hp. rewrite (IH2 w rest' eq_refl Hrest' _ _ _ Hp).
        by rewrite lookup_insert_ne.
      * intros Hp. rewrite (IH1 Hrest _ _ _ Hp). by rewrite lookup_insert_ne.
    + destruct (parse_tokens parser rest vals) as [[vals1 args1]|] eqn:Hp; [|done].
      intros [= <- _]. by eapply IH1.
Qed.

(** Once [build_debug] is true, no later token makes it anything else. *)
Lemma parse_tokens_sticky parser argv :
  unshared parser →
  parser !! "--build-debug" = Some build_debug_option →
  ∀ vals vals' args,
    parse_tokens parser argv vals = Ok (vals', args) →
    vals !! "build_debug" = Some (PyBool true) →
    vals' !! "build_debug" = Some (PyBool true).
Proof.
  intros Hun Hflag. induction argv as [|tok rest IH1 IH2] using tokens_ind;
    intros vals vals' args; simpl.
  - by intros [= <- _].
  - destruct (parser !! tok) as [d|] eqn:Hd.
    + destruct (decide (tok = "--build-debug")) as [->|Hne].
      * assert (d = build_debug_option) as -> by congruence. simpl.
        intros Hp _. eapply IH1; [exact Hp|]. by rewrite lookup_insert_eq.
      * assert (opt_dest d ≠ "build_debug") as Hdest by (eapply Hun; eauto).
        destruct (opt_action d).
        -- destruct rest as [|w rest']; [done|].
           intros Hp Hv. eapply (IH2 w rest' eq_refl); [exact Hp|].
           by rewrite lookup_insert_ne.
        -- intros Hp Hv. eapply IH1; [exact Hp|]. by rewrite lookup_insert_ne.
    + destruct (parse_tokens parser rest vals) as [[vals1 args1]|] eqn:Hp; [|done].
      intros [= <- _]. by eapply IH1.
Qed.

(** The flag in option position: the switch is set and the parser goes on
    with the very next token. *)
Lemma parse_tokens_flag parser rest vals :
  parser !! "--build-debug" = Some build_debug_option →
  parse_tokens parser ("--build-debug" :: rest) vals
  = parse_tokens parser rest (<["build_debug" := PyBool true]> vals).
Proof. intros Hflag. simpl. by rewrite Hflag. Qed.

(** Registering the flag keeps the attribute unshared and gives it the
    default [False]. *)
Lemma unshared_insert parser :
  unshared parser → unshared (<["--build-debug" := build_debug_option]> parser).
Proof.
  intros Hun flag d Hd Hne. rewrite lookup_insert_ne in Hd by done.
  by eapply Hun.
Qed.

Lemma defaults_build_debug parser :
  unshared parser →
  parser !! "--build-debug" = Some build_debug_option →
  defaults parser !! "build_debug" = Some (PyBool false).
Proof.
  intros Hun Hflag.
  destruct (defaults_is_Some _ _ _ Hflag) as [v Hv]. simpl in Hv.
  rewrite Hv. f_equal.
  apply defaults_Some in Hv as (flag & d & Hd & Hdest & <-).
  destruct (decide (flag = "--build-debug")) as [->|Hne].
  - by assert (d = build_debug_option) as -> by congruence.
  - by destruct (Hun _ _ Hd Hne).
Qed.

(** With this tool's flag as the only registered option, the parser sets
    [build_debug] exactly when the flag occurs and hands every other token
    back. *)
Lemma parse_tokens_only_flag argv :
  ∀ vals,
    parse_tokens {["--build-debug" := build_debug_option]} argv vals
    = Ok (if bool_decide ("--build-debug" ∈ argv)
          then <["build_debug" := PyBool true]> vals else vals,
          filter (λ tok, tok ≠ "--build-debug") argv).
Proof.
  induction argv as [|tok rest IH]; intros vals; [done|].
  cbn [parse_tokens]. destruct (decide (tok = "--build-debug")) as [->|Hne].
  - rewrite lookup_singleton_eq. cbn [opt_action opt_dest build_debug_option].
    rewrite IH, filter_cons_False by (by intros []).
    rewrite (bool_decide_eq_true_2 (_ ∈ _ :: _)) by apply list_elem_of_here.
    case_bool_decide; [by rewrite insert_insert_eq|done].
  - rewrite lookup_singleton_ne by done.
    rewrite IH, filter_cons_True by done.
    rewrite (bool_decide_ext ("--build-debug" ∈ tok :: rest) ("--build-debug" ∈ rest));
      [done|].
    rewrite elem_of_cons. split; [by intros [?|?]|by right].
Qed.

Lemma defaults_only_flag :
  defaults {["--build-debug" := build_debug_option]}
  = {["build_debug" := PyBool false]}.
Proof. unfold defaults. by rewrite map_to_list_singleton. Qed.

(** A whole invocation with no option but this tool's: the flag is
    consumed wherever it stands, every other token is handed back, and the
    symbol is appended exactly when the flag occurs. *)
Lemma invoke_fresh env argv :
  invoke argv (fresh env)
  = Ok (filter (λ tok, tok ≠ "--build-debug") argv,
        if bool_decide ("--build-debug" ∈ argv)
        then appended (parsed true env)
        else parsed false env).
Proof.
  unfold invoke, mbind, M_bind. rewrite options_unfold.
  unfold parse_args, fresh. cbn [set_parser ctx_parser ctx_options ctx_env].
  rewrite insert_empty, defaults_only_flag, parse_tokens_only_flag.
  case_bool_decide.
  - rewrite insert_singleton_eq.
    change (set_options _ _) with (parsed true env).
    by rewrite (configure_true (parsed true env) (PyBool true)).
  - change (set_options _ _) with (parsed false env).
    by rewrite (configure_false (parsed false env) (PyBool false)).
Qed.

(** After the options phase and the parsing of any command line, the
    context is well formed for [configure]. *)
Lemma parse_args_well_formed ctx argv args ctx' :
  (options;; parse_args argv) ctx = Ok (args, ctx') → well_formed ctx'.
Proof.
  unfold mbind, M_bind. rewrite options_unfold. unfold parse_args.
  cbn [set_parser ctx_parser].
  set (parser := <["--build-debug" := build_debug_option]> (ctx_parser ctx)).
  destruct (parse_tokens parser argv (defaults parser))
    as [[vals args']|] eqn:Hp; [|done].
  intros [= _ <-]. unfold well_formed. cbn [set_options ctx_options].
  eapply parse_tokens_keeps; [exact Hp|].
  apply (defaults_is_Some parser "--build-debug" build_debug_option).
  apply lookup_insert_eq.
Qed.

End Options.

(** * The flag set: one symbol, at the end *)

(** C1. Whenever the parsed value of [--build-debug] is true, [configure]
    returns normally and the [DEFINES] list it leaves is the prior list
    followed by the single entry [BUILD_DEBUG]: one entry more, in last
    position, the earlier entries in their order. *)
Theorem configure_true_appends_symbol (ctx : Context) (v : PyVal) :
  ctx_options ctx !! "build_debug" = Some v →
  truthy v = true →
  ∃ ctx', configure ctx = Ok (tt, ctx')
          ∧ defines ctx' = defines ctx ++ ["BUILD_DEBUG"]
          ∧ length (defines ctx') = S (length (defines ctx)).
Proof.
  intros Hv Ht. exists (appended ctx). split; [by eapply configure_true|].
  rewrite defines_appended. split; [done|].
  rewrite length_app. simpl. lia.
Qed.

Lemma configure_true_appends_symbol_witness :
  ∃ ctx', configure (mkContext ∅ {["build_debug" := PyBool true]}
                               {["DEFINES" := ["FOO"]]}) = Ok (tt, ctx')
          ∧ defines ctx' = ["FOO"; "BUILD_DEBUG"]
          ∧ length (defines ctx') = 2.
Proof.
  exact (configure_true_appends_symbol
           (mkContext ∅ {["build_debug" := PyBool true]} {["DEFINES" := ["FOO"]]})
           (PyBool true) eq_refl eq_refl).
Defined.

(** * The flag unset: nothing happens *)

(** C2. Whenever the parsed value of [--build-debug] is false, [configure]
    returns normally and hands back the very context it was given; the
    [DEFINES] list, whatever it held, gains no entry. *)
Theorem configure_false_leaves_defines (ctx : Context) (v : PyVal) :
  ctx_options ctx !! "build_debug" = Some v →
  truthy v = false →
  ∃ ctx', configure ctx = Ok (tt, ctx')
          ∧ ctx' = ctx
          ∧ defines ctx' = defines ctx.
Proof.
  intros Hv Ht. exists ctx. split; [by eapply configure_false|done].
Qed.

Lemma configure_false_leaves_defines_witness :
  ∃ ctx', configure (mkContext ∅ {["build_debug" := PyBool false]} ∅) = Ok (tt, ctx')
          ∧ ctx' = mkContext ∅ {["build_debug" := PyBool false]} ∅
          ∧ defines ctx' = [].
Proof.
  exact (configure_false_leaves_defines
           (mkContext ∅ {["build_debug" := PyBool false]} ∅) (PyBool false)
           eq_refl eq_refl).
Defined.

(** * Calling [configure] again *)

(** C4. With the flag true, a second call of [configure] on the context the
    first call left appends the symbol a second time: the list ends in two
    copies of [BUILD_DEBUG], nothing is de-duplicated, and the outcome of two
    calls differs from the outcome of one. *)
Theorem configure_twice_appends_twice (ctx : Context) (v : PyVal) :
  ctx_options ctx !! "build_debug" = Some v →
  truthy v = true →
  ∃ ctx1 ctx2,
    configure ctx = Ok (tt, ctx1)
    ∧ (configure;; configure) ctx = Ok (tt, ctx2)
    ∧ configure ctx1 = Ok (tt, ctx2)
    ∧ defines ctx2 = defines ctx ++ ["BUILD_DEBUG"; "BUILD_DEBUG"]
    ∧ defines ctx2 ≠ defines ctx1.
Proof.
  intros Hv Ht. exists (appended ctx), (appended (appended ctx)).
  pose proof (configure_true ctx v Hv Ht) as H1.
  pose proof (configure_true (appended ctx) v Hv Ht) as H2.
  split; [done|]. split.
  { unfold mbind, M_bind. by rewrite H1. }
  split; [done|]. rewrite !defines_appended. split.
  - by rewrite <-app_assoc.
  - intros Heq. apply (f_equal length) in Heq.
    rewrite !length_app in Heq. simpl in Heq. lia.
Qed.

Lemma configure_twice_appends_twice_witness :
  ∃ ctx1 ctx2,
    configure (mkContext ∅ {["build_debug" := PyBool true]} ∅) = Ok (tt, ctx1)
    ∧ (configure;; configure) (mkContext ∅ {["build_debug" := PyBool true]} ∅)
      = Ok (tt, ctx2)
    ∧ configure ctx1 = Ok (tt, ctx2)
    ∧ defines ctx2 = ["BUILD_DEBUG"; "BUILD_DEBUG"]
    ∧ defines ctx2 ≠ defines ctx1.
Proof.
  exact (configure_twice_appends_twice
           (mkContext ∅ {["build_debug" := PyBool true]} ∅) (PyBool true)
           eq_refl eq_refl).
Defined.

(** * One call, at most one symbol *)

(** C5. Over one call of [configure] on a well-formed context, the entries
    added to [DEFINES] are at most one, any entry added is [BUILD_DEBUG],
    and an entry is added only if the flag's parsed value is true. *)
Theorem configure_appends_at_most_once (ctx : Context) (v : PyVal) :
  ctx_options ctx !! "build_debug" = Some v →
  ∃ ctx' added,
    configure ctx = Ok (tt, ctx')
    ∧ defines ctx' = defines ctx ++ added
    ∧ length added ≤ 1
    ∧ (∀ x, x ∈ added → x = "BUILD_DEBUG" ∧ truthy v = true).
Proof.
  intros Hv. destruct (truthy v) eqn:Ht.
  - exists (appended ctx), ["BUILD_DEBUG"].
    split; [by eapply configure_true|]. split; [apply defines_appended|].
    split; [simpl; lia|]. by intros x ->%list_elem_of_singleton.
  - exists ctx, []. split; [by eapply configure_false|].
    split; [by rewrite app_nil_r|]. split; [simpl; lia|].
    intros x Hx. by apply not_elem_of_nil in Hx.
Qed.

Lemma configure_appends_at_most_once_witness :
  ∃ ctx' added,
    configure (mkContext ∅ {["build_debug" := PyBool true]}
                         {["DEFINES" := ["BUILD_DEBUG"]]}) = Ok (tt, ctx')
    ∧ defines ctx' = ["BUILD_DEBUG"] ++ added
    ∧ length added ≤ 1
    ∧ (∀ x, x ∈ added → x = "BUILD_DEBUG" ∧ true = true).
Proof.
  exact (configure_appends_at_most_once
           (mkContext ∅ {["build_debug" := PyBool true]}
                      {["DEFINES" := ["BUILD_DEBUG"]]})
           (PyBool true) eq_refl).
Defined.

(** * Frame: what [configure] leaves alone *)

(** C6. For every initial [DEFINES] list and every value of the flag,
    [configure] returns normally and the list it was given is a prefix of
    the list it leaves: entries are only ever added at the end. *)
Theorem configure_defines_prefix (ctx : Context) (v : PyVal) :
  ctx_options ctx !! "build_debug" = Some v →
  ∃ ctx', configure ctx = Ok (tt, ctx')
          ∧ defines ctx `prefix_of` defines ctx'.
Proof.
  intros Hv. destruct (truthy v) eqn:Ht.
  - exists (appended ctx). split; [by eapply configure_true|].
    rewrite defines_appended. by apply prefix_app_r.
  - exists ctx. split; [by eapply configure_false|done].
Qed.

Lemma configure_defines_prefix_witness :
  ∃ ctx', configure (mkContext ∅ {["build_debug" := PyBool true]}
                               {["DEFINES" := ["FOO"; "BAR"]]}) = Ok (tt, ctx')
          ∧ ["FOO"; "BAR"] `prefix_of` defines ctx'.
Proof.
  exact (configure_defines_prefix
           (mkContext ∅ {["build_debug" := PyBool true]}
                      {["DEFINES" := ["FOO"; "BAR"]]})
           (PyBool true) eq_refl).
Defined.

(** C9. For either value of the flag, [configure] returns normally and
    changes nothing but the [DEFINES] field of the environment: every other
    field of the environment reads as before, and so do the table of parsed
    option values and the set of registered options. *)
Theorem configure_frame (ctx : Context) (v : PyVal) :
  ctx_options ctx !! "build_debug" = Some v →
  ∃ ctx', configure ctx = Ok (tt, ctx')
          ∧ (∀ var, var ≠ "DEFINES" → ctx_env ctx' !! var = ctx_env ctx !! var)
          ∧ ctx_options ctx' = ctx_options ctx
          ∧ ctx_parser ctx' = ctx_parser ctx.
Proof.
  intros Hv. destruct (truthy v) eqn:Ht.
  - exists (appended ctx). split; [by eapply configure_true|].
    split; [|done]. intros var Hvar. unfold appended. simpl.
    by rewrite lookup_insert_ne.
  - exists ctx. split; [by eapply configure_false|done].
Qed.

Lemma configure_frame_witness :
  ∃ ctx', configure (mkContext ∅ {["build_debug" := PyBool true]}
                               {["CFLAGS" := ["-O2"]]}) = Ok (tt, ctx')
          ∧ (∀ var, var ≠ "DEFINES" →
               ctx_env ctx' !! var
               = ({["CFLAGS" := ["-O2"]]} : gmap string (list string)) !! var)
          ∧ ctx_options ctx' = {["build_debug" := PyBool true]}
          ∧ ctx_parser ctx' = ∅.
Proof.
  exact (configure_frame
           (mkContext ∅ {["build_debug" := PyBool true]} {["CFLAGS" := ["-O2"]]})
           (PyBool true) eq_refl).
Defined.

(** * Determinism *)

(** C10. The [DEFINES] list that [configure] leaves (or the exception it
    raises) is a function of the flag's parsed value and of the initial
    [DEFINES] list: two contexts that agree on these two give the same
    outcome, whatever else they hold. *)
Theorem configure_deterministic (ctx1 ctx2 : Context) :
  ctx_options ctx1 !! "build_debug" = ctx_options ctx2 !! "build_debug" →
  defines ctx1 = defines ctx2 →
  outcome (configure ctx1) = outcome (configure ctx2).
Proof.
  intros Hflag Hdefs.
  destruct (ctx_options ctx2 !! "build_debug") as [v|] eqn:Hv.
  - rewrite (configure_unfold ctx1 v Hflag), (configure_unfold ctx2 v Hv).
    destruct (truthy v); simpl; [|by rewrite Hdefs].
    by rewrite !defines_appended, Hdefs.
  - by rewrite (configure_raises ctx1 Hflag), (configure_raises ctx2 Hv).
Qed.

Lemma configure_deterministic_witness :
  outcome (configure (mkContext ∅ {["build_debug" := PyBool true]}
                                {["DEFINES" := ["FOO"]; "CFLAGS" := ["-O2"]]}))
  = outcome (configure (mkContext {["--verbose" := mkOptionDef store_true (PyBool false) "verbose output" "verbose"]}
                                  {["build_debug" := PyBool true; "verbose" := PyBool false]}
                                  {["DEFINES" := ["FOO"]]})).
Proof.
  exact (configure_deterministic
           (mkContext ∅ {["build_debug" := PyBool true]}
                      {["DEFINES" := ["FOO"]; "CFLAGS" := ["-O2"]]})
           (mkContext {["--verbose" := mkOptionDef store_true (PyBool false) "verbose output" "verbose"]}
                      {["build_debug" := PyBool true; "verbose" := PyBool false]}
                      {["DEFINES" := ["FOO"]]})
           eq_refl eq_refl).
Defined.

(** * The options phase *)

(** C8. [options] returns normally and its whole effect is on the set of
    recognised options: afterwards the flag [--build-debug] names one
    boolean definition (a switch, default [False], with its help text),
    every other flag names what it named before, and a set that did not
    have the flag has exactly one definition more.  The build environment
    and the table of parsed values are the ones it was given. *)
Theorem options_registers_one_flag (ctx : Context) :
  ∃ ctx',
    options ctx = Ok (tt, ctx')
    ∧ ctx_parser ctx' !! "--build-debug"
      = Some {| opt_action := store_true;
                opt_default := PyBool false;
                opt_help := "Mark a build to include debug code";
                opt_dest := "build_debug" |}
    ∧ (∀ other, other ≠ "--build-debug" →
         ctx_parser ctx' !! other = ctx_parser ctx !! other)
    ∧ (ctx_parser ctx !! "--build-debug" = None →
         size (ctx_parser ctx') = S (size (ctx_parser ctx)))
    ∧ ctx_env ctx' = ctx_env ctx
    ∧ defines ctx' = defines ctx
    ∧ ctx_options ctx' = ctx_options ctx.
Proof.
  eexists. split; [apply options_unfold|]. simpl.
  split; [apply lookup_insert_eq|].
  split; [intros other Hne; by rewrite lookup_insert_ne|].
  split; [intros Hnew; by apply map_size_insert_None|done].
Qed.

Lemma options_registers_one_flag_witness :
  ∃ ctx',
    options (mkContext ∅ ∅ {["DEFINES" := ["FOO"]]}) = Ok (tt, ctx')
    ∧ ctx_parser ctx' !! "--build-debug"
      = Some {| opt_action := store_true;
                opt_default := PyBool false;
                opt_help := "Mark a build to include debug code";
                opt_dest := "build_debug" |}
    ∧ (∀ other, other ≠ "--build-debug" →
         ctx_parser ctx' !! other = (∅ : gmap string OptionDef) !! other)
    ∧ ((∅ : gmap string OptionDef) !! "--build-debug" = None →
         size (ctx_parser ctx') = 1)
    ∧ ctx_env ctx' = {["DEFINES" := ["FOO"]]}
    ∧ defines ctx' = ["FOO"]
    ∧ ctx_options ctx' = ∅.
Proof.
  exact (options_registers_one_flag (mkContext ∅ ∅ {["DEFINES" := ["FOO"]]})).
Defined.

(** * The flag on the command line *)

(** C3. [options] registers [--build-debug] as a switch whose default is
    [False].  Provided no other registered option stores under
    [build_debug]: before any token is read the parsed value is [False];
    the flag, met in option position, sets the value to [True] and the
    parser goes on with the very next token (the flag takes no value), and
    the value is still [True] when parsing ends; and after a command line
    that does not have the flag the parsed value is [False] and [configure]
    leaves the context as it found it.  With this tool's flag as the only
    option, an invocation hands back every token but the flag, the parsed
    value is [True] exactly when the flag occurs on the command line, and
    [DEFINES] gains the symbol exactly then. *)
Theorem build_debug_is_a_switch :
  (∀ ctx, unshared (ctx_parser ctx) →
     ∃ ctx',
       options ctx = Ok (tt, ctx')
       ∧ (∃ help, ctx_parser ctx' !! "--build-debug"
                  = Some (mkOptionDef store_true (PyBool false) help "build_debug"))
       ∧ defaults (ctx_parser ctx') !! "build_debug" = Some (PyBool false)
       ∧ (∀ rest vals,
            parse_tokens (ctx_parser ctx') ("--build-debug" :: rest) vals
            = parse_tokens (ctx_parser ctx') rest (<["build_debug" := PyBool true]> vals))
       ∧ (∀ rest vals vals' args,
            parse_tokens (ctx_parser ctx') ("--build-debug" :: rest) vals = Ok (vals', args) →
            vals' !! "build_debug" = Some (PyBool true))
       ∧ (∀ argv args ctx'',
            "--build-debug" ∉ argv →
            parse_args argv ctx' = Ok (args, ctx'') →
            ctx_options ctx'' !! "build_debug" = Some (PyBool false)
            ∧ configure ctx'' = Ok (tt, ctx'')))
  ∧ (∀ env argv,
       ∃ ctx',
         invoke argv (fresh env)
         = Ok (filter (λ tok, tok ≠ "--build-debug") argv, ctx')
         ∧ ctx_options ctx' !! "build_debug"
           = Some (PyBool (bool_decide ("--build-debug" ∈ argv)))
         ∧ defines ctx'
           = env_get env "DEFINES"
             ++ (if bool_decide ("--build-debug" ∈ argv) then ["BUILD_DEBUG"] else [])).
Proof.
  split.
  - intros ctx Hun. eexists. split; [apply options_unfold|].
    cbn [set_parser ctx_parser].
    set (parser := <["--build-debug" := build_debug_option]> (ctx_parser ctx)).
    assert (parser !! "--build-debug" = Some build_debug_option) as Hflag
      by apply lookup_insert_eq.
    assert (unshared parser) as Hun' by by apply unshared_insert.
    split; [by eexists|].
    split; [by apply defaults_build_debug|].
    split; [intros rest vals; by apply parse_tokens_flag|].
    split.
    + intros rest vals vals' args. rewrite parse_tokens_flag by done.
      intros Hp. eapply parse_tokens_sticky; [done..|exact Hp|].
      apply lookup_insert_eq.
    + intros argv args ctx'' Hnotin. unfold parse_args.
      cbn [set_parser ctx_parser]. fold parser.
      destruct (parse_tokens parser argv (defaults parser))
        as [[vals args']|] eqn:Hp; [|done].
      intros [= _ <-]. simpl.
      assert (vals !! "build_debug" = Some (PyBool false)) as Hv.
      { rewrite (parse_tokens_absent _ _ Hun' Hnotin _ _ _ Hp).
        by apply defaults_build_debug. }
      split; [done|]. by eapply configure_false.
  - intros env argv. eexists. split; [apply invoke_fresh|].
    case_bool_decide.
    + split; [done|]. by rewrite defines_appended.
    + split; [done|]. unfold defines. simpl. by rewrite app_nil_r.
Qed.

Lemma build_debug_is_a_switch_witness :
  ∃ ctx',
    options (mkContext {["--prefix" := mkOptionDef store PyNone "installation prefix" "prefix"]} ∅ ∅)
    = Ok (tt, ctx')
    ∧ (∃ help, ctx_parser ctx' !! "--build-debug"
               = Some (mkOptionDef store_true (PyBool false) help "build_debug"))
    ∧ defaults (ctx_parser ctx') !! "build_debug" = Some (PyBool false)
    ∧ (∀ rest vals,
         parse_tokens (ctx_parser ctx') ("--build-debug" :: rest) vals
         = parse_tokens (ctx_parser ctx') rest (<["build_debug" := PyBool true]> vals))
    ∧ (∀ rest vals vals' args,
         parse_tokens (ctx_parser ctx') ("--build-debug" :: rest) vals = Ok (vals', args) →
         vals' !! "build_debug" = Some (PyBool true))
    ∧ (∀ argv args ctx'',
         "--build-debug" ∉ argv →
         parse_args argv ctx' = Ok (args, ctx'') →
         ctx_options ctx'' !! "build_debug" = Some (PyBool false)
         ∧ configure ctx'' = Ok (tt, ctx'')).
Proof.
  apply (proj1 build_debug_is_a_switch
           (mkContext {["--prefix" := mkOptionDef store PyNone "installation prefix" "prefix"]} ∅ ∅)).
  apply (bool_decide_unpack _). vm_compute. exact I.
Defined.

(** * No failure of the tool's own *)

(** C7. [options] returns normally, with no value, on every context.
    [configure] returns normally, with no value, on every well-formed
    context; the only exception that can come out of it is the host's
    [AttributeError] for a context that is not well formed.  The context the
    host builds by running [options] and parsing a command line is well
    formed. *)
Theorem options_configure_cannot_fail (ctx : Context) :
  (∃ ctx', options ctx = Ok (tt, ctx'))
  ∧ (well_formed ctx → ∃ ctx', configure ctx = Ok (tt, ctx'))
  ∧ (∀ e, configure ctx = Raise e →
          e = AttributeError "build_debug" ∧ ¬ well_formed ctx)
  ∧ (∀ argv args ctx',
       (options;; parse_args argv) ctx = Ok (args, ctx') →
       well_formed ctx' ∧ ∃ ctx'', configure ctx' = Ok (tt, ctx'')).
Proof.
  assert (∀ c, well_formed c → ∃ c', configure c = Ok (tt, c')) as Hwf.
  { intros c [v Hv]. rewrite (configure_unfold c v Hv).
    destruct (truthy v); by eexists. }
  split; [eexists; apply options_unfold|].
  split; [apply Hwf|]. split.
  - intros e He. destruct (ctx_options ctx !! "build_debug") as [v|] eqn:Hv.
    + rewrite (configure_unfold ctx v Hv) in He. by destruct (truthy v).
    + rewrite (configure_raises ctx Hv) in He. injection He as <-.
      split; [done|]. unfold well_formed. rewrite Hv. by intros [? ?].
  - intros argv args ctx' Hp.
    pose proof (parse_args_well_formed _ _ _ _ Hp) as Hctx'. auto.
Qed.

Lemma options_configure_cannot_fail_witness :
  (∃ ctx', options (parsed false {["DEFINES" := ["FOO"]]}) = Ok (tt, ctx'))
  ∧ well_formed (parsed false {["DEFINES" := ["FOO"]]})
  ∧ (∃ ctx', configure (parsed false {["DEFINES" := ["FOO"]]}) = Ok (tt, ctx')).
Proof.
  assert (well_formed (parsed false {["DEFINES" := ["FOO"]]})) as Hwf.
  { apply (bool_decide_unpack _). vm_compute. exact I. }
  pose proof (options_configure_cannot_fail (parsed false {["DEFINES" := ["FOO"]]}))
    as (Hoptions & Hconfigure & _).
  split; [exact Hoptions|]. split; [exact Hwf|]. exact (Hconfigure Hwf).
Defined.

(** * Further properties of [configure] *)

Section Repeated.

Implicit Types (ctx : Context) (v : PyVal) (n : nat).

(** The context after [n] calls, in closed form. *)
Lemma repeat_configure n :
  ∀ ctx v,
    ctx_options ctx !! "build_debug" = Some v →
    ∃ ctx',
      repeat_call configure n ctx = Ok (tt, ctx')
      ∧ defines ctx'
        = defines ctx ++ replicate (if truthy v then n else 0) "BUILD_DEBUG"
      ∧ ctx_options ctx' = ctx_options ctx.
Proof.
  induction n as [|n IH]; intros ctx v Hv.
  - exists ctx. split; [done|]. split; [|done].
    destruct (truthy v); simpl; by rewrite app_nil_r.
  - cbn [repeat_call]. unfold mbind, M_bind.
    rewrite (configure_unfold ctx v Hv). destruct (truthy v) eqn:Ht.
    + destruct (IH (appended ctx) v Hv) as (ctx' & Hrun & Hdefs & Hopts).
      exists ctx'. split; [done|]. rewrite Ht in Hdefs. split; [|done].
      by rewrite Hdefs, defines_appended, <-app_assoc.
    + destruct (IH ctx v Hv) as (ctx' & Hrun & Hdefs & Hopts).
      exists ctx'. split; [done|]. rewrite Ht in Hdefs. by split.
Qed.

End Repeated.

(** X1. On a context whose parsed options have the flag, any number [n] of
    calls of [configure] in a row returns normally: with the flag true the
    [DEFINES] list ends up followed by [n] copies of [BUILD_DEBUG], with the
    flag false it is unchanged; the parsed options are never touched, so
    each call sees the same flag. *)
Theorem configure_n_times (n : nat) (ctx : Context) (v : PyVal) :
  ctx_options ctx !! "build_debug" = Some v →
  ∃ ctx',
    repeat_call configure n ctx = Ok (tt, ctx')
    ∧ defines ctx'
      = defines ctx ++ replicate (if truthy v then n else 0) "BUILD_DEBUG"
    ∧ length (defines ctx')
      = length (defines ctx) + (if truthy v then n else 0)
    ∧ ctx_options ctx' = ctx_options ctx.
Proof.
  intros Hv. destruct (repeat_configure n ctx v Hv) as (ctx' & Hrun & Hdefs & Hopts).
  exists ctx'. split; [done|]. split; [done|]. split; [|done].
  by rewrite Hdefs, length_app, length_replicate.
Qed.

Lemma configure_n_times_witness :
  ∃ ctx',
    repeat_call configure 3 (parsed true {["DEFINES" := ["FOO"]]}) = Ok (tt, ctx')
    ∧ defines ctx' = ["FOO"; "BUILD_DEBUG"; "BUILD_DEBUG"; "BUILD_DEBUG"]
    ∧ length (defines ctx') = 4
    ∧ ctx_options ctx' = {["build_debug" := PyBool true]}.
Proof.
  exact (configure_n_times 3 (parsed true {["DEFINES" := ["FOO"]]}) (PyBool true)
           eq_refl).
Defined.

(** X2. Read as a set of symbols, [DEFINES] after one or more calls of
    [configure] holds exactly the symbols it held before, and [BUILD_DEBUG]
    when the flag is true: repeated calls add duplicates but no symbol that
    one call would not add. *)
Theorem configure_defines_membership (n : nat) (ctx : Context) (v : PyVal) :
  ctx_options ctx !! "build_debug" = Some v →
  ∃ ctx1 ctxn,
    configure ctx = Ok (tt, ctx1)
    ∧ repeat_call configure (S n) ctx = Ok (tt, ctxn)
    ∧ (∀ x, x ∈ defines ctx1 ↔ x ∈ defines ctx ∨ (x = "BUILD_DEBUG" ∧ truthy v = true))
    ∧ (∀ x, x ∈ defines ctxn ↔ x ∈ defines ctx1).
Proof.
  intros Hv.
  destruct (repeat_configure 1 ctx v Hv) as (ctx1 & Hrun1 & Hdefs1 & _).
  destruct (repeat_configure (S n) ctx v Hv) as (ctxn & Hrunn & Hdefsn & _).
  exists ctx1, ctxn. split.
  { cbn [repeat_call] in Hrun1. unfold mbind, M_bind in Hrun1.
    destruct (configure ctx) as [[[] c]|e]; [|done].
    by injection Hrun1 as ->. }
  split; [done|].
  assert (∀ m x, x ∈ defines ctx ++ replicate (if truthy v then S m else 0) "BUILD_DEBUG"
                 ↔ x ∈ defines ctx ∨ (x = "BUILD_DEBUG" ∧ truthy v = true)) as Hmem.
  { intros m x. rewrite elem_of_app, elem_of_replicate.
    destruct (truthy v); intuition congruence. }
  split.
  - intros x. rewrite Hdefs1. apply Hmem.
  - intros x. rewrite Hdefsn, Hdefs1, !Hmem. done.
Qed.

Lemma configure_defines_membership_witness :
  ∃ ctx1 ctxn,
    configure (parsed true {["DEFINES" := ["FOO"]]}) = Ok (tt, ctx1)
    ∧ repeat_call configure 3 (parsed true {["DEFINES" := ["FOO"]]}) = Ok (tt, ctxn)
    ∧ (∀ x, x ∈ defines ctx1 ↔ x ∈ ["FOO"] ∨ (x = "BUILD_DEBUG" ∧ true = true))
    ∧ (∀ x, x ∈ defines ctxn ↔ x ∈ defines ctx1).
Proof.
  exact (configure_defines_membership 2 (parsed true {["DEFINES" := ["FOO"]]})
           (PyBool true) eq_refl).
Defined.

(** X3. On a context whose parsed options lack the attribute [build_debug],
    [configure] raises [AttributeError] for that attribute, whatever the
    environment holds; running [options] first does not help, since
    registering the flag gives it no parsed value; and a run of repeated
    calls stops at the first one. *)
Theorem configure_missing_attribute (ctx : Context) :
  ctx_options ctx !! "build_debug" = None →
  configure ctx = Raise (AttributeError "build_debug")
  ∧ (options;; configure) ctx = Raise (AttributeError "build_debug")
  ∧ (∀ n, repeat_call configure (S n) ctx = Raise (AttributeError "build_debug")).
Proof.
  intros Hv. pose proof (configure_raises ctx Hv) as Hraise.
  split; [done|]. split.
  - unfold mbind, M_bind. rewrite options_unfold.
    by apply configure_raises.
  - intros n. cbn [repeat_call]. unfold mbind, M_bind. by rewrite Hraise.
Qed.

Lemma configure_missing_attribute_witness :
  configure (fresh {["DEFINES" := ["FOO"]]}) = Raise (AttributeError "build_debug")
  ∧ (options;; configure) (fresh {["DEFINES" := ["FOO"]]})
    = Raise (AttributeError "build_debug")
  ∧ (∀ n, repeat_call configure (S n) (fresh {["DEFINES" := ["FOO"]]})
          = Raise (AttributeError "build_debug")).
Proof.
  exact (configure_missing_attribute (fresh {["DEFINES" := ["FOO"]]}) eq_refl).
Defined.
